(** * skincare-ai-app: the Flask backend of [app.py]

    [app.py] builds one Flask application object, binds the view
    function [home] to the URL rule ["/"] and, when executed as the main
    program, starts Flask's development server in debug mode.

    The development has three layers.
    - [Py]: the Python values the program manipulates (text, bytes,
      exceptions) and the effect monad in which Python code runs.
    - [Flask]: the part of Flask and Werkzeug that [app.py] calls, in
      their default configuration: rule registration, URL matching,
      request dispatch and the construction of responses.
    - [App]: the module [app.py] itself, statement by statement. *)

From Stdlib Require Import NArith String Ascii List Lia.
From Stdlib.Strings Require Import Byte.
From stdpp Require Import base option list strings gmap.

Open Scope string_scope.
Open Scope N_scope.

(* ===================================================================== *)
(** * Python values and effects *)
(* ===================================================================== *)

Module Py.

(** A Python 3 [str] is a sequence of Unicode code points, a [bytes]
    object a sequence of octets. *)
Definition str := list N.
Definition bytes := list byte.

(** ** UTF-8, as [str.encode] and the source-file decoder implement it *)

(** The octets of one code point.  Surrogates and values above
    U+10FFFF cannot be encoded ([UnicodeEncodeError]). *)
Definition utf8_units (c : N) : option (list N) :=
  if c <? 0x80 then Some [c]
  else if c <? 0x800 then
    Some [N.lor 0xC0 (N.shiftr c 6); N.lor 0x80 (N.land c 0x3F)]
  else if c <? 0x10000 then
    if (0xD800 <=? c) && (c <=? 0xDFFF) then None
    else Some [N.lor 0xE0 (N.shiftr c 12);
               N.lor 0x80 (N.land (N.shiftr c 6) 0x3F);
               N.lor 0x80 (N.land c 0x3F)]
  else if c <? 0x110000 then
    Some [N.lor 0xF0 (N.shiftr c 18);
          N.lor 0x80 (N.land (N.shiftr c 12) 0x3F);
          N.lor 0x80 (N.land (N.shiftr c 6) 0x3F);
          N.lor 0x80 (N.land c 0x3F)]
  else None.

Definition encode_char (c : N) : option bytes :=
  units ← utf8_units c; mapM Byte.of_N units.

Fixpoint encode (s : str) : option bytes :=
  match s with
  | [] => Some []
  | c :: s' => b ← encode_char c; bs ← encode s'; Some (b ++ bs)%list
  end.

#[global] Instance byte_eq_decision : EqDecision byte := Byte.byte_eq_dec.

(** Payload of a continuation octet. *)
Definition low6 (b : byte) : N := N.land (Byte.to_N b) 0x3F.

(** A decoded code point is accepted only when it encodes back to the
    octets it was read from: this rejects stray continuation octets,
    overlong forms, surrogates and values above U+10FFFF. *)
Definition checked (c : N) (bs : bytes) : option N :=
  if decide (encode_char c = Some bs) then Some c else None.

Fixpoint decode (bs : bytes) : option str :=
  match bs with
  | [] => Some []
  | b0 :: t0 =>
    let n0 := Byte.to_N b0 in
    if n0 <? 0x80 then cons n0 <$> decode t0
    else if n0 <? 0xE0 then
      match t0 with
      | b1 :: t1 =>
        c ← checked (N.lor (N.shiftl (N.land n0 0x1F) 6) (low6 b1)) [b0; b1];
        cons c <$> decode t1
      | _ => None
      end
    else if n0 <? 0xF0 then
      match t0 with
      | b1 :: b2 :: t2 =>
        c ← checked (N.lor (N.shiftl (N.land n0 0x0F) 12)
                       (N.lor (N.shiftl (low6 b1) 6) (low6 b2))) [b0; b1; b2];
        cons c <$> decode t2
      | _ => None
      end
    else
      match t0 with
      | b1 :: b2 :: b3 :: t3 =>
        c ← checked (N.lor (N.shiftl (N.land n0 0x07) 18)
                       (N.lor (N.shiftl (low6 b1) 12)
                          (N.lor (N.shiftl (low6 b2) 6) (low6 b3))))
                    [b0; b1; b2; b3];
        cons c <$> decode t3
      | _ => None
      end
  end.

(** A string literal of a source file.  The file is UTF-8 (the default
    source encoding); the compiler decodes the octets between the
    quotes into code points.  A file that is not valid UTF-8 does not
    compile, which the model renders as the empty text. *)
Definition literal (s : string) : str :=
  default [] (decode (list_byte_of_string s)).

(** ** Exceptions *)

Inductive exn :=
| TypeError
| KeyError
| AssertionError
| UnicodeEncodeError
| NotFound                                      (* werkzeug.exceptions, 404 *)
| MethodNotAllowed (valid_methods : gset string). (* werkzeug.exceptions, 405 *)

Inductive result (A : Type) :=
| Ok (a : A)
| Raise (e : exn).
Arguments Ok {A} a.
Arguments Raise {A} e.

(** ** The world a Python process runs in *)

(** What the process does that can be seen from outside.  The only such
    action of the code modelled here is Werkzeug's [run_simple]: bind
    [host]:[port] and serve the application until the process dies. *)
Inductive action :=
| RunSimple (host : string) (port : N) (use_reloader use_debugger : bool).

Record World := {
  argv : list string;                       (* sys.argv *)
  environ : gmap string string;             (* os.environ *)
  static_folder : gmap string (string * bytes);
    (* files below the application's static folder: media type, content *)
  actions : list action;                    (* performed so far, oldest first *)
}.

Definition perform (a : action) (w : World) : World :=
  {| argv := argv w; environ := environ w; static_folder := static_folder w;
     actions := actions w ++ [a] |}.

(** Python code: it reads and changes the world, and returns or raises. *)
Definition Eff (A : Type) : Type := World → result A * World.

#[global] Instance Eff_ret : MRet Eff := λ A a w, (Ok a, w).

#[global] Instance Eff_bind : MBind Eff := λ A B k m w,
  match m w with
  | (Ok a, w') => k a w'
  | (Raise e, w') => (Raise e, w')
  end.

Definition raise {A} (e : exn) : Eff A := λ w, (Raise e, w).

Definition lift {A} (r : result A) : Eff A := λ w, (r, w).

End Py.

(* ===================================================================== *)
(** * Flask and Werkzeug, as far as [app.py] calls them *)
(* ===================================================================== *)

(** Flask and Werkzeug are libraries the program imports; their code is
    not part of the repository.  The definitions below follow what the
    libraries do in their default configuration, under the names the
    libraries use: [Flask.__init__] ([new]), [add_url_rule], [route],
    [Rule.__init__] ([new_rule]), [MapAdapter.match] ([match_rules]),
    [dispatch_request], [make_response], [full_dispatch_request],
    [wsgi_app] and [run].  Left out: redirects for merged or missing
    slashes, hooks and error handlers (the program registers none), and
    the headers of a response other than Content-Type and Allow. *)

Module Flask.
Import Py.

(** ** Requests and responses *)

(** [path] is Werkzeug's [request.path]: the part of the URL used for
    routing, which always starts with one slash.  The query string is a
    separate field. *)
Record Request := {
  method : string;
  path : string;
  query_string : string;
  headers : list (string * string);
  data : bytes;
}.

(** The body of a response: octets, or the HTML page that Werkzeug
    renders for an HTTP error of the given code. *)
Inductive Body :=
| Data (d : bytes)
| DefaultPage (code : N).

Record Response := {
  status_code : N;
  content_type : string;
  allow : option (gset string);           (* the Allow header *)
  body : Body;
}.

(** What a view function may return (the forms [make_response]
    distinguishes that occur here). *)
Inductive view_rv :=
| RvStr (s : str)
| RvBytes (b : bytes)
| RvResponse (r : Response).

(** A view function.  Flask calls it as [f( **view_args )] while the
    request is the current one of the context. *)
Record view_func := {
  func_name : string;                                   (* f.__name__ *)
  func_call : gmap string string → Request → Eff view_rv;
}.

(** [def name(): body], a function without parameters: a call that
    passes keyword arguments raises [TypeError]. *)
Definition def (name : string) (body : Request → Eff view_rv) : view_func :=
  {| func_name := name;
     func_call := λ kwargs req,
       if decide (kwargs = ∅) then body req else raise TypeError |}.

(** ** URL rules *)

Record Rule := {
  rule : string;
  methods : gset string;
  endpoint : string;
  provide_automatic_options : bool;
}.

(** The two shapes of rule that occur: a fixed path, and a fixed prefix
    followed by one [<path:name>] converter. *)
Inductive pattern :=
| Static (p : string)
| PathTail (pre name : string).

Definition parse_rule (r : string) : option pattern :=
  match index 0 "<" r with
  | None => Some (Static r)
  | Some i =>
    let pre := substring 0 i r in
    let conv := substring i (String.length r - i) r in
    let n := String.length conv in
    if String.prefix "<path:" conv && String.eqb (substring (n - 1) 1 conv) ">"
    then Some (PathTail pre (substring 6 (n - 7) conv))
    else None
  end.

(** The [path] converter matches the regular expression [[^/].*?]: a
    non-empty remainder that does not start with a slash. *)
Definition match_pattern (p : pattern) (pth : string)
  : option (gmap string string) :=
  match p with
  | Static s => if decide (pth = s) then Some ∅ else None
  | PathTail pre name =>
    if String.prefix pre pth then
      let rest :=
        substring (String.length pre) (String.length pth - String.length pre) pth in
      match rest with
      | EmptyString => None
      | String c _ =>
        if decide (c = "/"%char) then None else Some {[ name := rest ]}
      end
    else None
  end.

Definition match_rule (r : Rule) (pth : string) : option (gmap string string) :=
  p ← parse_rule (rule r); match_pattern p pth.

(** [MapAdapter.match]: the first rule that matches path and method; if
    rules match the path but none the method, [MethodNotAllowed] with
    the methods of those rules; otherwise [NotFound]. *)
Fixpoint match_rules (rules : list Rule) (pth meth : string)
    (have_match_for : gset string) : result (Rule * gmap string string) :=
  match rules with
  | [] =>
    if decide (have_match_for = ∅) then Raise NotFound
    else Raise (MethodNotAllowed have_match_for)
  | r :: rules' =>
    match match_rule r pth with
    | Some view_args =>
      if decide (meth ∈ methods r) then Ok (r, view_args)
      else match_rules rules' pth meth (have_match_for ∪ methods r)
    | None => match_rules rules' pth meth have_match_for
    end
  end.

(** [MapAdapter.allowed_methods]: match with the impossible method
    ["--"] and read the valid methods off the exception. *)
Definition allowed_methods (rules : list Rule) (pth : string) : gset string :=
  match match_rules rules pth "--" ∅ with
  | Raise (MethodNotAllowed valid) => valid
  | _ => ∅
  end.

(** ** The application object *)

Record Flask := {
  import_name : string;
  url_map : list Rule;
  view_functions : gmap string view_func;
  debug : bool;
  got_first_request : bool;
}.

Definition set_debug (d : bool) (app : Flask) : Flask :=
  {| import_name := import_name app; url_map := url_map app;
     view_functions := view_functions app; debug := d;
     got_first_request := got_first_request app |}.

Definition set_got_first_request (app : Flask) : Flask :=
  {| import_name := import_name app; url_map := url_map app;
     view_functions := view_functions app; debug := debug app;
     got_first_request := true |}.

(** [Rule.__init__]: a rule that answers GET also answers HEAD. *)
Definition new_rule (r : string) (meths : gset string) (ep : string)
    (auto_options : bool) : Rule :=
  {| rule := r;
     methods := if decide ("GET" ∈ meths) then meths ∪ {["HEAD"]} else meths;
     endpoint := ep;
     provide_automatic_options := auto_options |}.

(** [Flask.add_url_rule(rule, endpoint, view_func)] without [methods]
    and without further options, as every caller here uses it.  The
    methods default to GET; OPTIONS is added and answered by Flask
    itself unless the rule lists it.  The model cannot compare function
    objects, so an endpoint that is already bound is an [AssertionError]
    (Flask raises it when the bound function is a different one). *)
Definition add_url_rule (app : Flask) (r : string) (ep : option string)
    (f : view_func) : result Flask :=
  let ep := default (func_name f) ep in
  let meths : gset string := {["GET"]} in
  let auto_options := bool_decide ("OPTIONS" ∉ meths) in
  let meths := if auto_options then meths ∪ {["OPTIONS"]} else meths in
  match view_functions app !! ep with
  | Some _ => Raise AssertionError
  | None =>
    Ok {| import_name := import_name app;
          url_map := url_map app ++ [new_rule r meths ep auto_options];
          view_functions := <[ep := f]> (view_functions app);
          debug := debug app;
          got_first_request := got_first_request app |}
  end.

(** The decorator [@app.route(rule)]: the endpoint is the name of the
    decorated function. *)
Definition route (app : Flask) (r : string) (f : view_func) : result Flask :=
  add_url_rule app r None f.

Definition default_content_type : string := "text/html; charset=utf-8".

(** The view of the static rule, [send_static_file(filename)]. *)
Definition send_static_file : view_func :=
  {| func_name := "<lambda>";
     func_call := λ kwargs _ w,
       match kwargs !! "filename" with
       | None => (Raise TypeError, w)
       | Some name =>
         match static_folder w !! name with
         | None => (Raise NotFound, w)
         | Some (media_type, content) =>
           (Ok (RvResponse {| status_code := 200; content_type := media_type;
                              allow := None; body := Data content |}), w)
         end
       end |}.

(** [Flask(import_name)].  The static folder defaults to ["static"], so
    the constructor itself registers the rule that serves it. *)
Definition new (name : string) : result Flask :=
  add_url_rule
    {| import_name := name; url_map := []; view_functions := ∅;
       debug := false; got_first_request := false |}
    "/static/<path:filename>" (Some "static") send_static_file.

(** ** Handling one request *)

(** [Flask.make_response] on a view's return value: text is encoded as
    UTF-8; status 200 and the default content type unless the view
    built the response itself. *)
Definition make_response (rv : view_rv) : result Response :=
  match rv with
  | RvStr s =>
    match encode s with
    | Some d => Ok {| status_code := 200; content_type := default_content_type;
                      allow := None; body := Data d |}
    | None => Raise UnicodeEncodeError
    end
  | RvBytes d => Ok {| status_code := 200; content_type := default_content_type;
                       allow := None; body := Data d |}
  | RvResponse r => Ok r
  end.

Definition make_default_options_response (app : Flask) (req : Request)
    : Response :=
  {| status_code := 200; content_type := default_content_type;
     allow := Some (allowed_methods (url_map app) (path req));
     body := Data [] |}.

Definition dispatch_request (app : Flask) (req : Request) : Eff view_rv :=
  '(r, view_args) ← lift (match_rules (url_map app) (path req) (method req) ∅);
  if provide_automatic_options r && String.eqb (method req) "OPTIONS"
  then mret (RvResponse (make_default_options_response app req))
  else
    match view_functions app !! endpoint r with
    | Some f => func_call f view_args req
    | None => raise KeyError
    end.

(** The response Werkzeug builds for an HTTP exception, and the 500
    response for every other exception that escapes a view. *)
Definition http_error (code : N) (allowed : option (gset string)) : Response :=
  {| status_code := code; content_type := default_content_type;
     allow := allowed; body := DefaultPage code |}.

Definition handle_exception (e : exn) : Response :=
  match e with
  | NotFound => http_error 404 None
  | MethodNotAllowed valid => http_error 405 (Some valid)
  | _ => http_error 500 None
  end.

Definition full_dispatch_request (app : Flask) (req : Request) (w : World)
    : Response * World :=
  match (rv ← dispatch_request app req; lift (make_response rv)) w with
  | (Ok resp, w') => (resp, w')
  | (Raise e, w') => (handle_exception e, w')
  end.

(** A HEAD request is answered like GET, without the body. *)
Definition strip_body (req : Request) (resp : Response) : Response :=
  if String.eqb (method req) "HEAD"
  then {| status_code := status_code resp; content_type := content_type resp;
          allow := allow resp; body := Data [] |}
  else resp.

(** [Flask.wsgi_app]: the response, and the application object and the
    world after the request.  Flask notes on the application object that
    a request has been handled (it does so on entering
    [full_dispatch_request]); this flag is the only thing that handling
    a request changes in the object. *)
Definition wsgi_app (app : Flask) (req : Request) (w : World)
    : Response * Flask * World :=
  let app' := set_got_first_request app in
  let '(resp, w') := full_dispatch_request app' req w in
  (strip_body req resp, app', w').

(** ** The development server *)

(** [str.lower] on the ASCII letters.  It serves only to compare a
    value with the words ["0"], ["false"] and ["no"], which no other
    character lowers into. *)
Definition lower_char (c : ascii) : ascii :=
  let n := nat_of_ascii c in
  if (65 <=? n)%nat && (n <=? 90)%nat then ascii_of_nat (n + 32) else c.

Fixpoint lower (s : string) : string :=
  match s with
  | EmptyString => EmptyString
  | String c s' => String (lower_char c) (lower s')
  end.

Definition is_false_word (val : string) : bool :=
  bool_decide (lower val ∈ ["0"; "false"; "no"]).

(** [get_debug_flag()]: FLASK_DEBUG is set, not empty and not one of
    the words for false. *)
Definition get_debug_flag (w : World) : bool :=
  match environ w !! "FLASK_DEBUG" with
  | None | Some EmptyString => false
  | Some val => negb (is_false_word val)
  end.

(** [get_load_dotenv(default)]: FLASK_SKIP_DOTENV, when set and not
    empty, decides; it skips unless it is one of the words for false. *)
Definition get_load_dotenv (dflt : bool) (w : World) : bool :=
  match environ w !! "FLASK_SKIP_DOTENV" with
  | None | Some EmptyString => dflt
  | Some val => is_false_word val
  end.

(** [Flask.run(host, port, debug)], with [load_dotenv] at its default.
    - When the environment variable FLASK_RUN_FROM_CLI is ["true"] (the
      [flask run] command sets it), the call is ignored: it returns at
      once, starts no server and leaves the application object alone.
    - Otherwise, unless dotenv loading is skipped, a FLASK_DEBUG of the
      environment sets the debug flag; an explicit [debug] overrides
      every other source.  Host and port default to 127.0.0.1:5000 (the
      program sets no SERVER_NAME), the reloader and the debugger follow
      the debug flag, and [run_simple] is called.
    Left out: the messages printed on the terminal, and the reading of
    [.env] files by the optional [python-dotenv] package, which can only
    add environment variables before FLASK_DEBUG is looked up. *)
Definition run (app : Flask) (host : option string) (port : option N)
    (dbg : option bool) : Eff Flask :=
  λ w,
    if decide (environ w !! "FLASK_RUN_FROM_CLI" = Some "true") then (Ok app, w)
    else
      let app1 :=
        if get_load_dotenv true w then
          if decide (is_Some (environ w !! "FLASK_DEBUG"))
          then set_debug (get_debug_flag w) app
          else app
        else app in
      let app2 := match dbg with Some d => set_debug d app1 | None => app1 end in
      (Ok app2,
       perform (RunSimple (default "127.0.0.1" host) (default 5000 port)
                          (debug app2) (debug app2)) w).

(** The requests a running server answers, one after the other. *)
Fixpoint serve (app : Flask) (reqs : list Request) (w : World)
    : list Response * Flask * World :=
  match reqs with
  | [] => ([], app, w)
  | req :: reqs' =>
    let '(resp, app', w') := wsgi_app app req w in
    let '(resps, app'', w'') := serve app' reqs' w' in
    (resp :: resps, app'', w'')
  end.

End Flask.

(* ===================================================================== *)
(** * The module [app.py] *)
(* ===================================================================== *)

Module App.
Import Py Flask.

(** [def home(): return "..."] *)
Definition home : view_func :=
  def "home" (λ _, mret (RvStr (literal "🎉 Skincare AI Backend is Running!"))).

(** The statements of the module, run with the given [__name__]; the
    result is the object bound to the global [app]. *)
Definition exec_module (__name__ : string) : Eff Flask :=
  app ← lift (Flask.new __name__);
  app ← lift (route app "/" home);
  if decide (__name__ = "__main__")
  then run app None None (Some true)
  else mret app.

(** ** Vocabulary of the statements below *)

(** The response the application gives to one request. *)
Definition response (app : Flask) (req : Request) (w : World) : Response :=
  (wsgi_app app req w).1.1.

(** The media type of a response: its content type up to the first
    semicolon (Werkzeug's [Response.mimetype]). *)
Definition mimetype (resp : Response) : string :=
  match index 0 ";" (content_type resp) with
  | Some i => substring 0 i (content_type resp)
  | None => content_type resp
  end.

(** The two rules of the URL map once the module has run: the one the
    constructor adds and the one [@app.route("/")] adds. *)
Definition static_rule : Rule :=
  new_rule "/static/<path:filename>" ({["GET"]} ∪ {["OPTIONS"]}) "static" true.

Definition home_rule : Rule :=
  new_rule "/" ({["GET"]} ∪ {["OPTIONS"]}) "home" true.

(** An application object that routes as the one of [app.py] does. *)
Definition installed (app : Flask) : Prop :=
  url_map app = [static_rule; home_rule] ∧
  view_functions app = <["home" := home]> (<["static" := send_static_file]> ∅).

(** The octets of the greeting, as they stand in the source file. *)
Definition greeting_bytes : bytes :=
  list_byte_of_string "🎉 Skincare AI Backend is Running!".

(** The response that carries the greeting. *)
Definition greeting_response : Response :=
  {| status_code := 200; content_type := default_content_type;
     allow := None; body := Data greeting_bytes |}.

(** The response to OPTIONS on the root path. *)
Definition options_response : Response :=
  {| status_code := 200; content_type := default_content_type;
     allow := Some (methods home_rule); body := Data [] |}.

(** The reading of the routing claim under which every request other
    than GET on the root path is refused with 404 or 405. *)
Definition only_get_root_answered : Prop :=
  ∀ name w0 app w1 req w,
    exec_module name w0 = (Ok app, w1) →
    ¬ (method req = "GET" ∧ path req = "/") →
    status_code (response app req w) = 404 ∨
    status_code (response app req w) = 405.

(** The reading of the entry-point claim under which the server is
    started whatever the arguments and the environment. *)
Definition server_started_in_every_world : Prop :=
  ∃ app, ∀ w,
    exec_module "__main__" w =
    (Ok app, perform (RunSimple "127.0.0.1" 5000 true true) w).

(** Sample inputs. *)
Definition sample_world : World :=
  {| argv := ["app.py"]; environ := {[ "HOME" := "/root" ]};
     static_folder := ∅; actions := [] |}.

Definition other_world : World :=
  {| argv := ["app.py"; "--port"; "80"];
     environ := {[ "FLASK_ENV" := "production" ]};
     static_folder := {[ "style.css" := ("text/css", []) ]};
     actions := [RunSimple "0.0.0.0" 80 false false] |}.

Definition cli_world : World :=
  {| argv := ["app.py"]; environ := {[ "FLASK_RUN_FROM_CLI" := "true" ]};
     static_folder := ∅; actions := [] |}.

Definition debug_off_world : World :=
  {| argv := ["app.py"; "--no-debug"];
     environ := {[ "FLASK_DEBUG" := "0" ]};
     static_folder := ∅; actions := [] |}.

Definition request_of (meth pth : string) : Request :=
  {| method := meth; path := pth; query_string := "";
     headers := []; data := [] |}.

Definition busy_get_root : Request :=
  {| method := "GET"; path := "/"; query_string := "debug=0&user=admin";
     headers := [("Accept", "application/json"); ("Cookie", "sid=42")];
     data := list_byte_of_string "{}" |}.

End App.

(* ===================================================================== *)
(** * Properties of the codec *)
(* ===================================================================== *)

Section Codec.
Import Py.

Lemma checked_Some c bs c' :
  checked c bs = Some c' → c' = c ∧ encode_char c = Some bs.
Proof.
  unfold checked. destruct (decide (encode_char c = Some bs)); [|discriminate].
  intros [= <-]. auto.
Qed.

Lemma encode_char_ascii b :
  (Byte.to_N b <? 0x80) = true → encode_char (Byte.to_N b) = Some [b].
Proof.
  intros H. unfold encode_char, utf8_units. rewrite H. simpl.
  rewrite Byte.of_to_N. reflexivity.
Qed.

Lemma encode_cons c s b bs :
  encode_char c = Some b → encode s = Some bs → encode (c :: s) = Some (b ++ bs)%list.
Proof. intros Hc Hs. simpl. rewrite Hc. simpl. rewrite Hs. reflexivity. Qed.

(** Decoding accepts only canonical UTF-8: what it returns encodes back
    to the octets it read. *)
Lemma decode_encode bs s : decode bs = Some s → encode s = Some bs.
Proof.
  remember (length bs) as n eqn:Hn.
  revert bs s Hn. induction (lt_wf n) as [n _ IH]. intros bs s Hn.
  assert (Hrec : ∀ t s', (length t < length bs)%nat →
                         decode t = Some s' → encode s' = Some t).
  { intros t s' Hlt. apply (IH (length t)); [lia | reflexivity]. }
  clear IH Hn.
  destruct bs as [|b0 t0]; [intros [= <-]; reflexivity|].
  cbn [decode]. cbv zeta.
  destruct (Byte.to_N b0 <? 0x80) eqn:H1.
  { destruct (decode t0) as [s'|] eqn:Hd; [|discriminate].
    intros [= <-]. apply (encode_cons _ _ [b0]).
    - by apply encode_char_ascii.
    - apply Hrec; [simpl; lia | done]. }
  destruct (Byte.to_N b0 <? 0xE0).
  { destruct t0 as [|b1 t1]; [discriminate|].
    destruct (checked _ _) as [c|] eqn:Hc; [|discriminate].
    apply checked_Some in Hc as [-> Hc]. simpl.
    destruct (decode t1) as [s'|] eqn:Hd; [|discriminate].
    intros [= <-]. apply (encode_cons _ _ [b0; b1]); [done|].
    apply Hrec; [simpl; lia | done]. }
  destruct (Byte.to_N b0 <? 0xF0).
  { destruct t0 as [|b1 [|b2 t2]]; [discriminate..|].
    destruct (checked _ _) as [c|] eqn:Hc; [|discriminate].
    apply checked_Some in Hc as [-> Hc]. simpl.
    destruct (decode t2) as [s'|] eqn:Hd; [|discriminate].
    intros [= <-]. apply (encode_cons _ _ [b0; b1; b2]); [done|].
    apply Hrec; [simpl; lia | done]. }
  destruct t0 as [|b1 [|b2 [|b3 t3]]]; [discriminate..|].
  destruct (checked _ _) as [c|] eqn:Hc; [|discriminate].
  apply checked_Some in Hc as [-> Hc]. simpl.
  destruct (decode t3) as [s'|] eqn:Hd; [|discriminate].
  intros [= <-]. apply (encode_cons _ _ [b0; b1; b2; b3]); [done|].
  apply Hrec; [simpl; lia | done].
Qed.

End Codec.

(* ===================================================================== *)
(** * Routing of the application *)
(* ===================================================================== *)

Section Routing.
Import Py Flask App.

Lemma match_static_rule p :
  match_rule static_rule p = match_pattern (PathTail "/static/" "filename") p.
Proof. reflexivity. Qed.

Lemma match_home_rule p :
  match_rule home_rule p = if decide (p = "/") then Some ∅ else None.
Proof. reflexivity. Qed.

Lemma methods_home_rule m :
  m ∈ methods home_rule ↔ m = "GET" ∨ m = "HEAD" ∨ m = "OPTIONS".
Proof.
  unfold home_rule, new_rule. simpl.
  rewrite decide_True by (apply elem_of_union_l; by apply elem_of_singleton).
  rewrite !elem_of_union, !elem_of_singleton. tauto.
Qed.

Lemma methods_static_rule : methods static_rule = methods home_rule.
Proof. reflexivity. Qed.

Lemma static_needs_prefix p :
  String.prefix "/static/" p = false → match_rule static_rule p = None.
Proof. intros H. rewrite match_static_rule. unfold match_pattern. by rewrite H. Qed.

Lemma static_not_root : match_rule static_rule "/" = None.
Proof. reflexivity. Qed.

(** The module runs to completion under every name and in every world,
    and the object it binds to [app] routes as [installed] says. *)
(** [app.run(debug=True)]: ignored under the [flask] command; otherwise
    the debug flag is set and the server started, whatever else the
    environment holds. *)
Lemma run_debug_true app w :
  run app None None (Some true) w =
  if decide (environ w !! "FLASK_RUN_FROM_CLI" = Some "true") then (Ok app, w)
  else (Ok (set_debug true app),
        perform (RunSimple "127.0.0.1" 5000 true true) w).
Proof.
  unfold run. destruct (decide (environ w !! _ = _)); [reflexivity|].
  destruct (get_load_dotenv true w); [|reflexivity].
  destruct (decide (is_Some (environ w !! "FLASK_DEBUG"))); reflexivity.
Qed.

(** The statements of the module, one by one. *)
Lemma exec_module_steps name w :
  ∃ app0 app,
    Flask.new name = Ok app0 ∧
    route app0 "/" home = Ok app ∧
    installed app ∧
    url_map app = (url_map app0 ++ [home_rule])%list ∧
    view_functions app = <["home" := home]> (view_functions app0) ∧
    exec_module name w =
      if decide (name = "__main__") then run app None None (Some true) w
      else (Ok app, w).
Proof.
  eexists _, _. split; [reflexivity|]. split; [reflexivity|].
  split; [split; reflexivity|]. split; [reflexivity|]. split; [reflexivity|].
  unfold exec_module. destruct (decide (name = "__main__")); reflexivity.
Qed.

Lemma exec_module_returns name w :
  ∃ app w', exec_module name w = (Ok app, w').
Proof.
  destruct (exec_module_steps name w) as (app0 & app & _ & _ & _ & _ & _ & ->).
  destruct (decide (name = "__main__")); [|by eexists _, _].
  rewrite run_debug_true. destruct (decide _); by eexists _, _.
Qed.

Lemma exec_module_installed name w app w' :
  exec_module name w = (Ok app, w') → installed app.
Proof.
  destruct (exec_module_steps name w) as (app0 & app1 & _ & _ & Hin & _ & _ & ->).
  destruct (decide (name = "__main__")).
  - rewrite run_debug_true. destruct (decide _); intros [= <- _]; exact Hin.
  - by intros [= <- _].
Qed.

(** Matching against the two rules. *)
Lemma match_rules_root m :
  match_rules [static_rule; home_rule] "/" m ∅ =
  if decide (m ∈ methods home_rule) then Ok (home_rule, ∅)
  else Raise (MethodNotAllowed (methods home_rule)).
Proof.
  cbn [match_rules]. rewrite static_not_root, match_home_rule.
  rewrite decide_True by done.
  destruct (decide (m ∈ methods home_rule)); [done|].
  rewrite (left_id_L ∅ (∪)).
  rewrite decide_False; [done|].
  intros Hempty. assert (H : "GET" ∈ methods home_rule) by (apply methods_home_rule; auto).
  rewrite Hempty in H. by apply not_elem_of_empty in H.
Qed.

Lemma match_rules_other p m :
  p ≠ "/" →
  match_rules [static_rule; home_rule] p m ∅ =
  match match_rule static_rule p with
  | Some view_args =>
    if decide (m ∈ methods static_rule) then Ok (static_rule, view_args)
    else Raise (MethodNotAllowed (methods static_rule))
  | None => Raise NotFound
  end.
Proof.
  intros Hp. cbn [match_rules]. rewrite match_home_rule.
  rewrite (decide_False (P := p = "/")) by done.
  destruct (match_rule static_rule p); [|by rewrite decide_True].
  destruct (decide (m ∈ methods static_rule)); [done|].
  rewrite (left_id_L ∅ (∪)).
  rewrite decide_False; [done|].
  intros Hempty. assert (H : "GET" ∈ methods home_rule) by (apply methods_home_rule; auto).
  rewrite <- methods_static_rule, Hempty in H. by apply not_elem_of_empty in H.
Qed.

Lemma dispatch_root_get app req w :
  installed app → method req = "GET" → path req = "/" →
  full_dispatch_request app req w = (greeting_response, w).
Proof.
  destruct app, req. unfold installed. simpl. intros [-> ->] -> ->. reflexivity.
Qed.

Lemma dispatch_root_head app req w :
  installed app → method req = "HEAD" → path req = "/" →
  full_dispatch_request app req w = (greeting_response, w).
Proof.
  destruct app, req. unfold installed. simpl. intros [-> ->] -> ->. reflexivity.
Qed.

Lemma dispatch_root_options app req w :
  installed app → method req = "OPTIONS" → path req = "/" →
  full_dispatch_request app req w = (options_response, w).
Proof.
  destruct app, req. unfold installed. simpl. intros [-> ->] -> ->.
  unfold full_dispatch_request, dispatch_request, make_default_options_response,
    allowed_methods. simpl url_map. simpl path. simpl method.
  unfold mbind, Eff_bind, lift. rewrite !match_rules_root.
  rewrite decide_True by (apply methods_home_rule; auto).
  rewrite decide_False; [reflexivity|].
  rewrite methods_home_rule. intros [H|[H|H]]; discriminate H.
Qed.

Lemma dispatch_root_other app req w :
  installed app → path req = "/" → method req ∉ methods home_rule →
  full_dispatch_request app req w =
  (http_error 405 (Some (methods home_rule)), w).
Proof.
  destruct app, req. unfold installed. simpl. intros [-> ->] -> Hm.
  unfold full_dispatch_request, dispatch_request. simpl url_map. simpl path. simpl method.
  unfold mbind, Eff_bind, lift. rewrite match_rules_root.
  rewrite decide_False by done. reflexivity.
Qed.

Lemma dispatch_no_rule app req w :
  installed app → path req ≠ "/" → match_rule static_rule (path req) = None →
  full_dispatch_request app req w = (http_error 404 None, w).
Proof.
  destruct app, req. unfold installed. simpl. intros [-> ->] Hp Hs.
  unfold full_dispatch_request, dispatch_request. simpl url_map. simpl path. simpl method.
  unfold mbind, Eff_bind, lift. rewrite match_rules_other by done.
  rewrite Hs. reflexivity.
Qed.

Example lower_mixed_case : lower "FaLsE" = "false" ∧ lower "No" = "no".
Proof. split; reflexivity. Qed.

(** The two refusals and the static folder, on concrete requests. *)
Example post_root_is_405 :
  match exec_module "app" sample_world with
  | (Ok app, _) =>
    response app (request_of "POST" "/") sample_world
    = http_error 405 (Some (methods home_rule))
  | _ => False
  end.
Proof. reflexivity. Qed.

Example get_missing_is_404 :
  match exec_module "app" sample_world with
  | (Ok app, _) =>
    response app (request_of "GET" "/missing") sample_world = http_error 404 None
  | _ => False
  end.
Proof. reflexivity. Qed.

Example get_static_file :
  match exec_module "app" sample_world with
  | (Ok app, _) =>
    status_code (response app (request_of "GET" "/static/style.css") other_world) = 200
    ∧ content_type (response app (request_of "GET" "/static/style.css") other_world)
      = "text/css"
    ∧ status_code (response app (request_of "GET" "/static/style.css") sample_world) = 404
  | _ => False
  end.
Proof. repeat split. Qed.

Lemma match_static_args p view_args :
  match_rule static_rule p = Some view_args →
  ∃ rest, view_args = {[ "filename" := rest ]}.
Proof.
  rewrite match_static_rule. unfold match_pattern.
  destruct (String.prefix _ _); [|discriminate].
  destruct (substring _ _ _) as [|c rest]; [discriminate|].
  destruct (decide _); [discriminate|]. intros [= <-]. eauto.
Qed.

(** Below the static prefix the answer is Flask's own: a file of the
    static folder, the automatic OPTIONS response, 404 or 405. *)
Lemma dispatch_static app req w view_args :
  installed app → path req ≠ "/" →
  match_rule static_rule (path req) = Some view_args →
  (status_code (full_dispatch_request app req w).1 = 200 ∨
   status_code (full_dispatch_request app req w).1 = 404 ∨
   status_code (full_dispatch_request app req w).1 = 405) ∧
  (full_dispatch_request app req w).2 = w.
Proof.
  destruct app, req. unfold installed. simpl. intros [-> ->] Hp Hs.
  destruct (match_static_args _ _ Hs) as [rest ->].
  unfold full_dispatch_request, dispatch_request. simpl url_map. simpl path. simpl method.
  unfold mbind, Eff_bind, lift. rewrite match_rules_other by done.
  rewrite Hs.
  destruct (decide (method0 ∈ methods static_rule)); [|simpl; auto].
  change (provide_automatic_options static_rule) with true. cbn [andb].
  destruct (String.eqb method0 "OPTIONS"); [simpl; auto|].
  change (endpoint static_rule) with "static".
  cbn [view_functions]. rewrite lookup_insert_ne by done. rewrite lookup_insert_eq.
  cbn [func_call send_static_file]. rewrite lookup_singleton_eq.
  destruct (static_folder w !! rest) as [[media_type content]|]; simpl; auto.
Qed.

Lemma status_strip_body req resp :
  status_code (strip_body req resp) = status_code resp.
Proof. unfold strip_body. by destruct (String.eqb _ _). Qed.

(** Handling a request leaves the routing of the application as it was. *)
Lemma wsgi_app_installed app req w :
  installed app → installed (wsgi_app app req w).1.2.
Proof.
  unfold wsgi_app. destruct (full_dispatch_request _ _ _). simpl. done.
Qed.

Lemma serve_installed hist : ∀ app w resps app' w',
  installed app → serve app hist w = (resps, app', w') → installed app'.
Proof.
  induction hist as [|req hist IH]; intros app w resps app' w' Hin; simpl.
  - by intros [= _ <- _].
  - pose proof (wsgi_app_installed app req w Hin) as Hin'.
    destruct (wsgi_app app req w) as [[resp app1] w1]. simpl in Hin'.
    destruct (serve app1 hist w1) as [[resps1 app2] w2] eqn:Hs.
    intros [= _ <- _]. eapply IH; eauto.
Qed.

(** The answer to GET on the root path, for every application object
    that routes as the one of [app.py]. *)
Lemma response_get_root app req w :
  installed app → method req = "GET" → path req = "/" →
  wsgi_app app req w = (greeting_response, set_got_first_request app, w).
Proof.
  intros Hin Hm Hp. unfold wsgi_app. cbv zeta.
  rewrite dispatch_root_get by done.
  unfold strip_body. rewrite Hm. reflexivity.
Qed.

End Routing.

(* ===================================================================== *)
(** * The route [GET /] *)
(* ===================================================================== *)

Section Home.
Import Py Flask App.

Lemma literal_encodes :
  encode (literal "🎉 Skincare AI Backend is Running!") = Some greeting_bytes.
Proof. apply decode_encode. reflexivity. Qed.

Lemma home_returns req w :
  func_call home ∅ req w =
  (Ok (RvStr (literal "🎉 Skincare AI Backend is Running!")), w).
Proof. reflexivity. Qed.

(** C1. Every GET request to the path [/] is answered with status 200
    and a body that is, octet for octet, the greeting of the source
    file: the UTF-8 encoding of the text [home] returns.  This holds for
    the application object as the module leaves it and after any
    requests served since. *)
Theorem home_get_root name w0 app w1 hist w resps app' w' req :
  exec_module name w0 = (Ok app, w1) →
  serve app hist w = (resps, app', w') →
  method req = "GET" → path req = "/" →
  status_code (response app' req w') = 200 ∧
  body (response app' req w') = Data greeting_bytes ∧
  ∃ s, func_call home ∅ req w' = (Ok (RvStr s), w') ∧
       encode s = Some greeting_bytes.
Proof.
  intros Hexec Hserve Hm Hp.
  assert (Hin : installed app') by
    (eapply serve_installed; [eapply exec_module_installed|]; eassumption).
  unfold response. rewrite response_get_root by done.
  split; [reflexivity|]. split; [reflexivity|].
  eexists. split; [apply home_returns | apply literal_encodes].
Qed.

Lemma home_get_root_witness :
  ∃ app resps app' w',
    exec_module "app" sample_world = (Ok app, sample_world) ∧
    serve app [request_of "POST" "/"; request_of "GET" "/missing"] other_world
      = (resps, app', w') ∧
    status_code (response app' busy_get_root w') = 200 ∧
    body (response app' busy_get_root w') = Data greeting_bytes ∧
    ∃ s, func_call home ∅ busy_get_root w' = (Ok (RvStr s), w') ∧
         encode s = Some greeting_bytes.
Proof.
  eexists _, _, _, _. split; [reflexivity|]. split; [reflexivity|].
  eapply (home_get_root "app" sample_world _ sample_world
           [request_of "POST" "/"; request_of "GET" "/missing"] other_world
           _ _ _ busy_get_root); reflexivity.
Defined.

(** C2. The handler is deterministic and stateless: take any two
    moments in the life of the server (any two histories of requests,
    any two worlds) and any two GET requests to [/]; the two responses
    are the same, and so are the two values [home] returns. *)
Theorem home_deterministic name w0 app w1
    hist1 wa resps1 app1 wa' hist2 wb resps2 app2 wb' req1 req2 :
  exec_module name w0 = (Ok app, w1) →
  serve app hist1 wa = (resps1, app1, wa') →
  serve app hist2 wb = (resps2, app2, wb') →
  method req1 = "GET" → path req1 = "/" →
  method req2 = "GET" → path req2 = "/" →
  response app1 req1 wa' = response app2 req2 wb' ∧
  (func_call home ∅ req1 wa').1 = (func_call home ∅ req2 wb').1.
Proof.
  intros Hexec Hs1 Hs2 Hm1 Hp1 Hm2 Hp2.
  pose proof (exec_module_installed _ _ _ _ Hexec) as Hin.
  pose proof (serve_installed _ _ _ _ _ _ Hin Hs1) as Hin1.
  pose proof (serve_installed _ _ _ _ _ _ Hin Hs2) as Hin2.
  unfold response. rewrite !response_get_root by done.
  split; reflexivity.
Qed.

Lemma home_deterministic_witness :
  ∃ app resps1 app1 wa' resps2 app2 wb',
    exec_module "__main__" sample_world = (Ok app, wa') ∧
    serve app [] wa' = (resps1, app1, wa') ∧
    serve app [busy_get_root; request_of "DELETE" "/"; request_of "GET" "/static/style.css"]
      other_world = (resps2, app2, wb') ∧
    response app1 (request_of "GET" "/") wa' = response app2 busy_get_root wb' ∧
    (func_call home ∅ (request_of "GET" "/") wa').1 =
    (func_call home ∅ busy_get_root wb').1.
Proof.
  eexists _, _, _, _, _, _, _.
  split; [reflexivity|]. split; [reflexivity|]. split; [reflexivity|].
  eapply (home_deterministic "__main__" sample_world _ _
           [] _ _ _ _
           [busy_get_root; request_of "DELETE" "/"; request_of "GET" "/static/style.css"]
           other_world _ _ _ (request_of "GET" "/") busy_get_root);
    reflexivity.
Defined.

(** C4. [home] reads nothing of the request: two GET requests to [/]
    that differ in query string, headers and body get the same response,
    and a call of [home] gives the same outcome whatever the current
    request is. *)
Theorem home_ignores_request name w0 app w1 req1 req2 w :
  exec_module name w0 = (Ok app, w1) →
  method req1 = "GET" → path req1 = "/" →
  method req2 = "GET" → path req2 = "/" →
  response app req1 w = response app req2 w ∧
  ∀ kwargs reqa reqb v, func_call home kwargs reqa v = func_call home kwargs reqb v.
Proof.
  intros Hexec Hm1 Hp1 Hm2 Hp2.
  pose proof (exec_module_installed _ _ _ _ Hexec) as Hin.
  unfold response. rewrite !response_get_root by done.
  split; [reflexivity|]. intros kwargs reqa reqb v. reflexivity.
Qed.

Lemma home_ignores_request_witness :
  ∃ app,
    exec_module "app" sample_world = (Ok app, sample_world) ∧
    query_string (request_of "GET" "/") ≠ query_string busy_get_root ∧
    headers (request_of "GET" "/") ≠ headers busy_get_root ∧
    data (request_of "GET" "/") ≠ data busy_get_root ∧
    response app (request_of "GET" "/") other_world =
    response app busy_get_root other_world ∧
    ∀ kwargs reqa reqb v, func_call home kwargs reqa v = func_call home kwargs reqb v.
Proof.
  eexists. split; [reflexivity|].
  split; [discriminate|]. split; [discriminate|]. split; [discriminate|].
  eapply (home_ignores_request "app" sample_world _ sample_world
           (request_of "GET" "/") busy_get_root other_world); reflexivity.
Defined.

End Home.

(* ===================================================================== *)
(** * The URL map *)
(* ===================================================================== *)

Section UrlMap.
Import Py Flask App.

Lemma response_status app req w :
  status_code (response app req w) =
  status_code (full_dispatch_request (set_got_first_request app) req w).1.
Proof.
  unfold response, wsgi_app.
  destruct (full_dispatch_request _ _ _) as [resp w']. simpl.
  apply status_strip_body.
Qed.

Lemma installed_set_got app : installed app → installed (set_got_first_request app).
Proof. done. Qed.

(** C3, as stated, fails.  Input: the module imported as ["app"], then
    the request HEAD / (or OPTIONS /).  [@app.route("/")] names no
    methods, so the rule answers GET, and with it HEAD and OPTIONS:
    HEAD / runs [home] and is answered 200 with an empty body, OPTIONS /
    is answered 200 with an Allow header; neither is 404 or 405. *)
Lemma other_methods_counterexample :
  (∃ app,
     exec_module "app" sample_world = (Ok app, sample_world) ∧
     response app (request_of "HEAD" "/") sample_world =
       {| status_code := 200; content_type := default_content_type;
          allow := None; body := Data [] |} ∧
     response app (request_of "OPTIONS" "/") sample_world = options_response) ∧
  ¬ only_get_root_answered.
Proof.
  split.
  - eexists. split; [reflexivity|]. split; reflexivity.
  - intros Hclaim.
    destruct (Hclaim "app" sample_world _ sample_world
                (request_of "HEAD" "/") sample_world eq_refl) as [H|H].
    + intros [Hm _]. discriminate Hm.
    + discriminate H.
    + discriminate H.
Qed.

(** C3, amended.  The module adds exactly one rule to the URL map the
    constructor leaves: ["/"], bound to [home] under the endpoint
    ["home"], for the methods GET, HEAD and OPTIONS.  On the path [/],
    GET is answered with the greeting, HEAD with the same response
    without body, OPTIONS with Flask's automatic response, and every
    other method with 405 and the three methods in Allow.  A path other
    than [/] that is not below [/static/] is answered 404, whatever the
    method. *)
Theorem routes_of_app name w0 app w1 :
  exec_module name w0 = (Ok app, w1) →
  (∃ app0, Flask.new name = Ok app0 ∧
           url_map app = (url_map app0 ++ [home_rule])%list ∧
           view_functions app = <["home" := home]> (view_functions app0)) ∧
  rule home_rule = "/" ∧ endpoint home_rule = "home" ∧
  (∀ m, m ∈ methods home_rule ↔ m = "GET" ∨ m = "HEAD" ∨ m = "OPTIONS") ∧
  ∀ req w,
    (path req = "/" → method req = "GET" →
       response app req w = greeting_response) ∧
    (path req = "/" → method req = "HEAD" →
       response app req w =
         {| status_code := 200; content_type := default_content_type;
            allow := None; body := Data [] |}) ∧
    (path req = "/" → method req = "OPTIONS" →
       response app req w = options_response) ∧
    (path req = "/" →
       method req ≠ "GET" → method req ≠ "HEAD" → method req ≠ "OPTIONS" →
       response app req w = http_error 405 (Some (methods home_rule))) ∧
    (path req ≠ "/" → String.prefix "/static/" (path req) = false →
       status_code (response app req w) = 404).
Proof.
  intros Hexec.
  pose proof (exec_module_installed _ _ _ _ Hexec) as Hin.
  split.
  { destruct (exec_module_steps name w0)
      as (app0 & app1 & Hnew & _ & _ & Hu & Hv & Hsteps).
    rewrite Hsteps in Hexec. exists app0. split; [exact Hnew|].
    destruct (decide (name = "__main__")).
    - rewrite run_debug_true in Hexec.
      destruct (decide _); injection Hexec as <- _; by split.
    - injection Hexec as <- _. by split. }
  split; [reflexivity|]. split; [reflexivity|].
  split; [apply methods_home_rule|].
  intros req w. pose proof (installed_set_got _ Hin) as Hin'.
  repeat split.
  - intros Hp Hm. unfold response. by rewrite response_get_root.
  - intros Hp Hm. unfold response, wsgi_app.
    rewrite dispatch_root_head by done.
    unfold strip_body. rewrite Hm. reflexivity.
  - intros Hp Hm. unfold response, wsgi_app.
    rewrite dispatch_root_options by done.
    unfold strip_body. rewrite Hm. reflexivity.
  - intros Hp Hg Hh Ho. unfold response, wsgi_app.
    rewrite dispatch_root_other; [| done | done |].
    + unfold strip_body.
      destruct (String.eqb_spec (method req) "HEAD"); [contradiction|reflexivity].
    + rewrite methods_home_rule. tauto.
  - intros Hp Hpre. rewrite response_status.
    rewrite dispatch_no_rule; [reflexivity | done | done |].
    by apply static_needs_prefix.
Qed.

Lemma routes_of_app_witness :
  ∃ app,
    exec_module "app" sample_world = (Ok app, sample_world) ∧
    response app (request_of "POST" "/") other_world =
      http_error 405 (Some (methods home_rule)) ∧
    status_code (response app (request_of "GET" "/missing") other_world) = 404.
Proof.
  eexists. split; [reflexivity|].
  pose proof (routes_of_app "app" sample_world _ sample_world eq_refl) as H.
  destruct H as (_ & _ & _ & _ & H).
  split.
  - apply (H (request_of "POST" "/") other_world); [reflexivity | discriminate..].
  - apply (H (request_of "GET" "/missing") other_world); [discriminate | reflexivity].
Defined.

End UrlMap.

(* ===================================================================== *)
(** * The handler and the entry point *)
(* ===================================================================== *)

Section Handler.
Import Py Flask App.

(** C5. The text [home] returns contains the party-popper emoji
    (U+1F389) and the words that name the service and say that it is
    running. *)
Theorem greeting_content :
  ∃ s, (∀ req w, func_call home ∅ req w = (Ok (RvStr s), w)) ∧
       0x1F389 ∈ s ∧
       ∃ before after,
         s = (before ++ literal "Skincare AI Backend is Running" ++ after)%list.
Proof.
  exists (literal "🎉 Skincare AI Backend is Running!").
  split; [intros req w; apply home_returns|].
  split; [vm_compute; apply list_elem_of_here|].
  exists [0x1F389; 32], [33]. reflexivity.
Qed.

(** C6. A call of [home] has no side effect: whatever the arguments, the
    current request and the world, the world after the call is the world
    before it (no action performed, no file, argument or environment
    variable changed); the same holds for the whole handling of a GET
    request to [/], which also leaves the routing of the application
    untouched. *)
Theorem home_no_side_effects name w0 app w1 req w :
  exec_module name w0 = (Ok app, w1) →
  method req = "GET" → path req = "/" →
  (∀ kwargs r v, (func_call home kwargs r v).2 = v) ∧
  (dispatch_request app req w).2 = w ∧
  (wsgi_app app req w).2 = w ∧
  url_map (wsgi_app app req w).1.2 = url_map app ∧
  view_functions (wsgi_app app req w).1.2 = view_functions app.
Proof.
  intros Hexec Hm Hp.
  pose proof (exec_module_installed _ _ _ _ Hexec) as Hin.
  split.
  { intros kwargs r v. unfold home, def. simpl.
    by destruct (decide (kwargs = ∅)). }
  split.
  { destruct app, req. destruct Hin as [Hu Hv]. simpl in *. subst. reflexivity. }
  rewrite response_get_root by done. repeat split.
Qed.

Lemma home_no_side_effects_witness :
  ∃ app,
    exec_module "app" sample_world = (Ok app, sample_world) ∧
    (∀ kwargs r v, (func_call home kwargs r v).2 = v) ∧
    (dispatch_request app busy_get_root other_world).2 = other_world ∧
    (wsgi_app app busy_get_root other_world).2 = other_world ∧
    url_map (wsgi_app app busy_get_root other_world).1.2 = url_map app ∧
    view_functions (wsgi_app app busy_get_root other_world).1.2 = view_functions app.
Proof.
  eexists. split; [reflexivity|].
  eapply (home_no_side_effects "app" sample_world _ sample_world
            busy_get_root other_world); reflexivity.
Defined.

(** C7. The application sets no content type: [home] returns bare text,
    and the response to GET / carries Flask's default for text,
    [text/html; charset=utf-8], whose media type is [text/html]. *)
Theorem content_type_default name w0 app w1 req w :
  exec_module name w0 = (Ok app, w1) →
  method req = "GET" → path req = "/" →
  (∃ s, func_call home ∅ req w = (Ok (RvStr s), w)) ∧
  content_type (response app req w) = default_content_type ∧
  (mimetype (response app req w) = "text/plain" ∨
   mimetype (response app req w) = "text/html").
Proof.
  intros Hexec Hm Hp.
  pose proof (exec_module_installed _ _ _ _ Hexec) as Hin.
  split; [eexists; apply home_returns|].
  unfold response. rewrite response_get_root by done.
  split; [reflexivity | right; reflexivity].
Qed.

Lemma content_type_default_witness :
  ∃ app,
    exec_module "app" sample_world = (Ok app, sample_world) ∧
    (∃ s, func_call home ∅ busy_get_root sample_world = (Ok (RvStr s), sample_world)) ∧
    content_type (response app busy_get_root sample_world) = default_content_type ∧
    (mimetype (response app busy_get_root sample_world) = "text/plain" ∨
     mimetype (response app busy_get_root sample_world) = "text/html").
Proof.
  eexists. split; [reflexivity|].
  eapply (content_type_default "app" sample_world _ sample_world
            busy_get_root sample_world); reflexivity.
Defined.

(** C8, as stated, fails.  Input: the file run as the main program in a
    world whose environment has FLASK_RUN_FROM_CLI=true.  [app.run]
    looks the variable up and returns at once: no server is started,
    while in a world without the variable the server is started.  So an
    environment variable is read, and the server is not started on every
    invocation. *)
Lemma run_from_cli_counterexample :
  environ cli_world !! "FLASK_RUN_FROM_CLI" = Some "true" ∧
  actions (exec_module "__main__" cli_world).2 = [] ∧
  argv cli_world = argv sample_world ∧
  actions (exec_module "__main__" sample_world).2
    = [RunSimple "127.0.0.1" 5000 true true] ∧
  ¬ server_started_in_every_world.
Proof.
  split; [reflexivity|]. split; [reflexivity|].
  split; [reflexivity|]. split; [reflexivity|].
  intros [app H]. specialize (H cli_world).
  apply (f_equal (λ r, actions r.2)) in H. discriminate H.
Qed.

(** C8, amended.  Run as the main program, the module builds the
    application object, registers the rule for [home] and calls
    [app.run(debug=True)], passing nothing else.  Unless the environment
    variable FLASK_RUN_FROM_CLI is ["true"], that call sets the debug
    flag and starts the server: the one action performed is [run_simple]
    on the defaults 127.0.0.1:5000 with reloader and debugger on, the
    same for every argument vector and for every value of every other
    environment variable (FLASK_DEBUG and FLASK_SKIP_DOTENV are looked
    up, and overridden by [debug=True]).  When FLASK_RUN_FROM_CLI is
    ["true"], the call returns at once: no server is started and the
    application object is left as the first two statements built it. *)
Theorem main_starts_server_unless_cli :
  ∃ app0 app,
    Flask.new "__main__" = Ok app0 ∧
    route app0 "/" home = Ok app ∧
    ∀ w,
      (environ w !! "FLASK_RUN_FROM_CLI" ≠ Some "true" →
         exec_module "__main__" w =
           (Ok (set_debug true app),
            perform (RunSimple "127.0.0.1" 5000 true true) w) ∧
         debug (set_debug true app) = true ∧
         argv (exec_module "__main__" w).2 = argv w ∧
         actions (exec_module "__main__" w).2 =
           (actions w ++ [RunSimple "127.0.0.1" 5000 true true])%list) ∧
      (environ w !! "FLASK_RUN_FROM_CLI" = Some "true" →
         exec_module "__main__" w = (Ok app, w)).
Proof.
  destruct (exec_module_steps "__main__" sample_world)
    as (app0 & app & Hnew & Hroute & _ & _ & _ & _).
  exists app0, app. split; [exact Hnew|]. split; [exact Hroute|].
  intros w.
  destruct (exec_module_steps "__main__" w)
    as (app0' & app' & Hnew' & Hroute' & _ & _ & _ & Hsteps).
  assert (app0' = app0) as -> by congruence.
  assert (app' = app) as -> by congruence.
  rewrite Hsteps, (decide_True (P := "__main__" = "__main__")) by done.
  rewrite run_debug_true.
  split; intros Henv.
  - rewrite decide_False by done. repeat split.
  - rewrite decide_True by done. reflexivity.
Qed.

Lemma main_starts_server_unless_cli_witness :
  ∃ app0 app,
    Flask.new "__main__" = Ok app0 ∧
    route app0 "/" home = Ok app ∧
    environ debug_off_world !! "FLASK_RUN_FROM_CLI" ≠ Some "true" ∧
    environ debug_off_world !! "FLASK_DEBUG" = Some "0" ∧
    exec_module "__main__" debug_off_world =
      (Ok (set_debug true app),
       perform (RunSimple "127.0.0.1" 5000 true true) debug_off_world) ∧
    environ cli_world !! "FLASK_RUN_FROM_CLI" = Some "true" ∧
    exec_module "__main__" cli_world = (Ok app, cli_world).
Proof.
  destruct main_starts_server_unless_cli as (app0 & app & Hnew & Hroute & H).
  exists app0, app. split; [exact Hnew|]. split; [exact Hroute|].
  split; [discriminate|]. split; [reflexivity|].
  split; [apply (H debug_off_world); discriminate|].
  split; [reflexivity|].
  apply (H cli_world). reflexivity.
Defined.



(** C10. Importing the module does not start the server.  Under any
    name other than ["__main__"] the module only constructs the
    application object and registers the one rule: the object bound to
    [app] is the constructor's with the rule for [home] added, and the
    world, with the actions performed in it, is as it was. *)
Theorem import_does_not_run name w :
  name ≠ "__main__" →
  ∃ app0 app,
    Flask.new name = Ok app0 ∧
    route app0 "/" home = Ok app ∧
    url_map app = (url_map app0 ++ [home_rule])%list ∧
    exec_module name w = (Ok app, w).
Proof.
  intros Hname.
  eexists _, _. split; [reflexivity|]. split; [reflexivity|].
  split; [reflexivity|].
  unfold exec_module.
  destruct (decide (name = "__main__")); [contradiction | reflexivity].
Qed.

Lemma import_does_not_run_witness :
  "app" ≠ "__main__" ∧
  ∃ app0 app,
    Flask.new "app" = Ok app0 ∧
    route app0 "/" home = Ok app ∧
    url_map app = (url_map app0 ++ [home_rule])%list ∧
    exec_module "app" other_world = (Ok app, other_world).
Proof.
  split; [discriminate|].
  apply (import_does_not_run "app" other_world). discriminate.
Defined.

End Handler.

(* ===================================================================== *)
(** * The server as a whole *)
(* ===================================================================== *)

Section Server.
Import Py Flask App.

(** Handling a request, of whatever path and method, leaves the world
    as it was. *)
Lemma dispatch_world app req w :
  installed app → (full_dispatch_request app req w).2 = w.
Proof.
  intros Hin.
  destruct (decide (path req = "/")) as [Hp|Hp].
  - destruct (decide (method req ∈ methods home_rule)) as [Hm|Hm].
    + apply methods_home_rule in Hm as [Hm|[Hm|Hm]].
      * by rewrite dispatch_root_get.
      * by rewrite dispatch_root_head.
      * by rewrite dispatch_root_options.
    + by rewrite dispatch_root_other.
  - destruct (match_rule static_rule (path req)) as [view_args|] eqn:Hs.
    + by destruct (dispatch_static _ req w _ Hin Hp Hs) as [_ H].
    + by rewrite dispatch_no_rule.
Qed.

(** Below the static prefix the response is a function of the method,
    the path and the files of the static folder. *)
Lemma dispatch_static_depends app1 app2 req1 req2 w1 w2 view_args :
  installed app1 → installed app2 →
  method req1 = method req2 → path req1 = path req2 →
  static_folder w1 = static_folder w2 →
  path req1 ≠ "/" → match_rule static_rule (path req1) = Some view_args →
  (full_dispatch_request app1 req1 w1).1 = (full_dispatch_request app2 req2 w2).1.
Proof.
  destruct app1, app2, req1, req2. unfold installed. simpl.
  intros [-> ->] [-> ->] <- <- Hfiles Hp Hs.
  destruct (match_static_args _ _ Hs) as [rest ->].
  unfold full_dispatch_request, dispatch_request.
  simpl url_map. simpl path. simpl method.
  unfold mbind, Eff_bind, lift. rewrite match_rules_other by done.
  rewrite Hs.
  destruct (decide (method0 ∈ methods static_rule)); [|reflexivity].
  change (provide_automatic_options static_rule) with true. cbn [andb].
  destruct (String.eqb method0 "OPTIONS"); [reflexivity|].
  change (endpoint static_rule) with "static".
  cbn [view_functions]. rewrite lookup_insert_ne by done. rewrite lookup_insert_eq.
  cbn [func_call send_static_file]. rewrite lookup_singleton_eq.
  rewrite Hfiles.
  destruct (static_folder w2 !! rest) as [[media_type content]|]; reflexivity.
Qed.

(** The response is a function of the method and the path of the
    request and of the files of the static folder; it is the same for
    every application object that routes as the one of [app.py]. *)
Lemma dispatch_depends app1 app2 req1 req2 w1 w2 :
  installed app1 → installed app2 →
  method req1 = method req2 → path req1 = path req2 →
  static_folder w1 = static_folder w2 →
  (full_dispatch_request app1 req1 w1).1 = (full_dispatch_request app2 req2 w2).1.
Proof.
  intros Hin1 Hin2 Hm Hp Hfiles.
  destruct (decide (path req1 = "/")) as [Hp1|Hp1].
  - assert (Hp2 : path req2 = "/") by congruence.
    destruct (decide (method req1 ∈ methods home_rule)) as [Hm1|Hm1].
    + apply methods_home_rule in Hm1 as [Hm1|[Hm1|Hm1]].
      * rewrite !dispatch_root_get by congruence. reflexivity.
      * rewrite !dispatch_root_head by congruence. reflexivity.
      * rewrite !dispatch_root_options by congruence. reflexivity.
    + rewrite !dispatch_root_other by congruence. reflexivity.
  - assert (Hp2 : path req2 ≠ "/") by congruence.
    destruct (match_rule static_rule (path req1)) as [view_args|] eqn:Hs.
    + by eapply dispatch_static_depends.
    + rewrite !dispatch_no_rule by congruence. reflexivity.
Qed.

Lemma wsgi_app_world app req w : installed app → (wsgi_app app req w).2 = w.
Proof.
  intros Hin. unfold wsgi_app. cbv zeta.
  pose proof (dispatch_world (set_got_first_request app) req w Hin) as H.
  destruct (full_dispatch_request _ _ _). exact H.
Qed.

Lemma response_depends app1 app2 req1 req2 w1 w2 :
  installed app1 → installed app2 →
  method req1 = method req2 → path req1 = path req2 →
  static_folder w1 = static_folder w2 →
  response app1 req1 w1 = response app2 req2 w2.
Proof.
  intros Hin1 Hin2 Hm Hp Hfiles. unfold response, wsgi_app. cbv zeta.
  pose proof (dispatch_depends (set_got_first_request app1)
                (set_got_first_request app2) req1 req2 w1 w2
                Hin1 Hin2 Hm Hp Hfiles) as H.
  destruct (full_dispatch_request _ req1 _) as [resp1 w1'].
  destruct (full_dispatch_request _ req2 _) as [resp2 w2'].
  simpl in *. subst. unfold strip_body. by rewrite Hm.
Qed.

(** Outside the static folder the world plays no part. *)
Lemma response_off_static app req1 req2 w1 w2 :
  installed app →
  method req1 = method req2 → path req1 = path req2 →
  String.prefix "/static/" (path req1) = false →
  response app req1 w1 = response app req2 w2.
Proof.
  intros Hin Hm Hp Hpre. unfold response, wsgi_app. cbv zeta.
  pose proof (installed_set_got _ Hin) as Hin'.
  assert (H : (full_dispatch_request (set_got_first_request app) req1 w1).1 =
              (full_dispatch_request (set_got_first_request app) req2 w2).1).
  { destruct (decide (path req1 = "/")) as [Hp1|Hp1].
    - assert (Hp2 : path req2 = "/") by congruence.
      destruct (decide (method req1 ∈ methods home_rule)) as [Hm1|Hm1].
      + apply methods_home_rule in Hm1 as [Hm1|[Hm1|Hm1]].
        * rewrite !dispatch_root_get by congruence. reflexivity.
        * rewrite !dispatch_root_head by congruence. reflexivity.
        * rewrite !dispatch_root_options by congruence. reflexivity.
      + rewrite !dispatch_root_other by congruence. reflexivity.
    - assert (Hp2 : path req2 ≠ "/") by congruence.
      rewrite !dispatch_no_rule; try done.
      + apply static_needs_prefix. congruence.
      + by apply static_needs_prefix. }
  destruct (full_dispatch_request _ req1 _) as [resp1 w1'].
  destruct (full_dispatch_request _ req2 _) as [resp2 w2'].
  simpl in *. subst. unfold strip_body. by rewrite Hm.
Qed.

Lemma serve_installed_pointwise hist : ∀ app w,
  installed app →
  (serve app hist w).1.1 = map (λ req, response app req w) hist ∧
  (serve app hist w).2 = w.
Proof.
  induction hist as [|req hist IH]; intros app w Hin; [done|].
  cbn [serve map].
  pose proof (wsgi_app_world app req w Hin) as Hw.
  pose proof (wsgi_app_installed app req w Hin) as Hin'.
  unfold response at 1.
  destruct (wsgi_app app req w) as [[resp app1] w1]. simpl in Hw, Hin'. subst w1.
  destruct (IH app1 w Hin') as [IH1 IH2].
  destruct (serve app1 hist w) as [[resps app2] w2]. simpl in *. subst.
  split; [|reflexivity]. f_equal.
  apply map_ext. intros r. by apply response_depends.
Qed.

(** X1. Requests do not influence one another.  The responses the
    server gives to a sequence of requests, of any paths and methods,
    are the responses each request would get alone from the application
    as the module leaves it; and after the whole sequence the world has
    its arguments, environment, files and performed actions as before. *)
Theorem serve_pointwise name w0 app w1 hist w :
  exec_module name w0 = (Ok app, w1) →
  (serve app hist w).1.1 = map (λ req, response app req w) hist ∧
  (serve app hist w).2 = w.
Proof.
  intros Hexec. apply serve_installed_pointwise.
  by eapply exec_module_installed.
Qed.

Lemma serve_pointwise_witness :
  ∃ app,
    exec_module "app" sample_world = (Ok app, sample_world) ∧
    (serve app [request_of "POST" "/"; busy_get_root;
                request_of "GET" "/static/style.css"; request_of "HEAD" "/"]
       other_world).1.1
    = map (λ req, response app req other_world)
        [request_of "POST" "/"; busy_get_root;
         request_of "GET" "/static/style.css"; request_of "HEAD" "/"] ∧
    (serve app [request_of "POST" "/"; busy_get_root;
                request_of "GET" "/static/style.css"; request_of "HEAD" "/"]
       other_world).2 = other_world.
Proof.
  eexists. split; [reflexivity|].
  eapply (serve_pointwise "app" sample_world _ sample_world). reflexivity.
Defined.

(** X2. How the module was loaded does not change what it answers.  The
    application object built when the file runs as the main program
    (debug flag set by [app.run(debug=True)]) and the one built when the
    file is imported under any name give the same response to every
    request in every world. *)
Theorem main_and_import_agree name1 name2 wa app1 wa' wb app2 wb' req w :
  exec_module name1 wa = (Ok app1, wa') →
  exec_module name2 wb = (Ok app2, wb') →
  response app1 req w = response app2 req w.
Proof.
  intros H1 H2.
  apply response_depends; try reflexivity; by eapply exec_module_installed.
Qed.

Lemma main_and_import_agree_witness :
  ∃ app1 wa' app2,
    exec_module "__main__" sample_world = (Ok app1, wa') ∧
    exec_module "app" other_world = (Ok app2, other_world) ∧
    debug app1 ≠ debug app2 ∧
    response app1 (request_of "DELETE" "/") other_world =
    response app2 (request_of "DELETE" "/") other_world.
Proof.
  eexists _, _, _. split; [reflexivity|]. split; [reflexivity|].
  split; [discriminate|].
  eapply (main_and_import_agree "__main__" "app" sample_world _ _ other_world);
    reflexivity.
Defined.

(** X3. Outside the static folder, nothing of a request but its method
    and path reaches the response, and nothing of the world at all: two
    requests with the same method and the same path, not below
    [/static/], get the same response, whatever their query strings,
    headers and bodies, and whatever the arguments, environment
    variables, files and earlier actions of the worlds they are handled
    in. *)
Theorem response_depends_on_method_and_path
    name w0 app w1 req1 req2 wa wb :
  exec_module name w0 = (Ok app, w1) →
  method req1 = method req2 → path req1 = path req2 →
  String.prefix "/static/" (path req1) = false →
  response app req1 wa = response app req2 wb.
Proof.
  intros Hexec Hm Hp Hpre.
  pose proof (exec_module_installed _ _ _ _ Hexec) as Hin.
  by apply response_off_static.
Qed.

Lemma response_depends_on_method_and_path_witness :
  ∃ app,
    exec_module "app" sample_world = (Ok app, sample_world) ∧
    environ sample_world ≠ environ other_world ∧
    static_folder sample_world ≠ static_folder other_world ∧
    response app
      {| method := "PUT"; path := "/admin"; query_string := "force=1";
         headers := [("Authorization", "Basic cm9vdA==")];
         data := list_byte_of_string "x" |}
      sample_world =
    response app (request_of "PUT" "/admin") other_world.
Proof.
  eexists. split; [reflexivity|].
  split; [by intros H; apply (f_equal (λ m, m !! "HOME")) in H|].
  split; [by intros H; apply (f_equal (λ m, m !! "style.css")) in H|].
  eapply (response_depends_on_method_and_path "app" sample_world _ sample_world);
    reflexivity.
Defined.

End Server.
